(** * OAuth gateway (src/index.js): session credentials, the [auth] gate and
    the route handlers, as a shallow embedding.

    The Express handlers are written in a small state-and-exception monad:
    the state is the response under construction together with the log of
    outbound HTTP calls, an exception is a JavaScript [throw] and
    [try_catch] is [try { ... } catch (err) { ... }].  JavaScript values
    are a JSON-like tree. *)

From Stdlib Require Import ZArith Lia.
From stdpp Require Import base strings list gmap.

Set Warnings "-register-all".
Local Open Scope string_scope.
Local Open Scope Z_scope.

(** ** JavaScript values *)

Inductive value : Type :=
| VUndefined
| VNull
| VBool (b : bool)
| VNum (n : Z)
| VStr (s : string)
| VArr (items : list value)
| VObj (fields : list (string * value)).

#[global] Instance value_inhabited : Inhabited value := populate VUndefined.

(** [ToBoolean]: what [!x] and [if (x)] look at. *)
Definition truthy (v : value) : bool :=
  match v with
  | VUndefined | VNull => false
  | VBool b => b
  | VNum n => negb (n =? 0)
  | VStr s => negb (String.eqb s "")
  | VArr _ | VObj _ => true
  end.

(** Own-property lookup in an object literal: the first binding of the key. *)
Fixpoint obj_lookup (k : string) (fields : list (string * value)) : option value :=
  match fields with
  | [] => None
  | (k', v) :: rest => if String.eqb k k' then Some v else obj_lookup k rest
  end.

(** [o[k] = v] on an object: overwrite the binding in place, or append it. *)
Fixpoint obj_set (k : string) (v : value) (fields : list (string * value))
  : list (string * value) :=
  match fields with
  | [] => [(k, v)]
  | (k', v') :: rest =>
      if String.eqb k k' then (k', v) :: rest else (k', v') :: obj_set k v rest
  end.

(** [JSON.parse(JSON.stringify(v))]: properties holding [undefined] are
    dropped, [undefined] array entries become [null]. *)
Fixpoint json_roundtrip (v : value) : value :=
  match v with
  | VArr items =>
      VArr (map (fun x => match x with
                          | VUndefined => VNull
                          | _ => json_roundtrip x
                          end) items)
  | VObj fields =>
      VObj (flat_map (fun '(k, x) => match x with
                                     | VUndefined => []
                                     | _ => [(k, json_roundtrip x)]
                                     end) fields)
  | _ => v
  end.

(** ** Exceptions *)

(** [InvalidSignature] and [Expired] are the two failures of the token
    codec; [SignError] is the codec refusing to sign, [TypeError] a
    property read on [null] or [undefined] (or a call of a non-function),
    [AxiosError] a rejected outbound request (network failure or a status
    outside 2xx). *)
Inductive exn : Type :=
| InvalidSignature
| Expired
| SignError
| TypeError
| AxiosError.

(** Exception-only computations. *)
Definition result (A : Type) : Type := exn + A.

Definition result_bind {A B} (r : result A) (k : A -> result B) : result B :=
  match r with
  | inl e => inl e
  | inr a => k a
  end.

(** Property read [v.k] for a name that is not built in: throws on
    [null] and [undefined], is [undefined] on the other primitives and on
    arrays. *)
Definition get (v : value) (k : string) : result value :=
  match v with
  | VUndefined | VNull => inl TypeError
  | VObj fields => inr (default VUndefined (obj_lookup k fields))
  | _ => inr VUndefined
  end.

(** [v.slice(start, end)] with non-negative bounds: defined on arrays and
    strings, any other receiver has no [slice] method. *)
Definition slice (v : value) (start stop : nat) : result value :=
  match v with
  | VArr items => inr (VArr (take (stop - start) (drop start items)))
  | VStr s => inr (VStr (String.substring start (stop - start) s))
  | _ => inl TypeError
  end.

(** ** The response under construction and the handler monad *)

(** Options object of [res.cookie]. *)
Record cookie_options := {
  maxAge : Z;
  httpOnly : bool;
  sameSite : string;
  secure : bool
}.

(** One [Set-Cookie] header written by the handler. *)
Inductive cookie_op : Type :=
| SetCookie (name : string) (val : string) (options : cookie_options)
| ClearCookie (name : string).

Record response := {
  statusCode : Z;
  setCookie : list cookie_op;
  body : option value
}.

(** A fresh Express response: status 200, no header, nothing sent. *)
Definition fresh_response : response :=
  {| statusCode := 200; setCookie := []; body := None |}.

(** An outbound HTTP call made through axios. *)
Record outbound := {
  method : string;
  url : string;
  form : list (string * value)
}.

(** What one request has done so far: its response and its outbound calls,
    oldest first. *)
Record exchange := {
  res : response;
  sent : list outbound
}.

Definition fresh_exchange : exchange := {| res := fresh_response; sent := [] |}.

Definition M (A : Type) : Type := exchange -> result A * exchange.

Definition ret {A} (a : A) : M A := fun s => (inr a, s).

Definition bind {A B} (m : M A) (k : A -> M B) : M B :=
  fun s => match m s with
           | (inl e, s') => (inl e, s')
           | (inr a, s') => k a s'
           end.

Definition throw {A} (e : exn) : M A := fun s => (inl e, s).

(** [try { m } catch (err) { h err }]: what [m] did to the response before
    throwing stays done. *)
Definition try_catch {A} (m : M A) (h : exn -> M A) : M A :=
  fun s => match m s with
           | (inl e, s') => h e s'
           | (inr a, s') => (inr a, s')
           end.

Definition lift {A} (r : result A) : M A := fun s => (r, s).

Declare Scope js_scope.
Delimit Scope js_scope with js.
Notation "'let*' x ':=' m 'in' k" := (bind m (fun x => k))
  (at level 10, x name, m at level 100, k at level 200) : js_scope.
Notation "m ';;' k" := (bind m (fun _ => k))
  (at level 100, k at level 200, right associativity) : js_scope.

(** [res.status(code)] *)
Definition res_status (code : Z) : M unit :=
  fun s =>
    (inr tt,
     {| res := {| statusCode := code;
                  setCookie := setCookie (res s);
                  body := body (res s) |};
        sent := sent s |}).

(** [res.json(v)] *)
Definition res_json (v : value) : M unit :=
  fun s =>
    (inr tt,
     {| res := {| statusCode := statusCode (res s);
                  setCookie := setCookie (res s);
                  body := Some v |};
        sent := sent s |}).

(** [res.cookie(name, val, options)] *)
Definition res_cookie (name val : string) (options : cookie_options) : M unit :=
  fun s =>
    (inr tt,
     {| res := {| statusCode := statusCode (res s);
                  setCookie := setCookie (res s) ++ [SetCookie name val options];
                  body := body (res s) |};
        sent := sent s |}).

(** [res.clearCookie(name)] *)
Definition res_clearCookie (name : string) : M unit :=
  fun s =>
    (inr tt,
     {| res := {| statusCode := statusCode (res s);
                  setCookie := setCookie (res s) ++ [ClearCookie name];
                  body := body (res s) |};
        sent := sent s |}).

(** A route handler as Express sees it: it is run to completion on the
    exchange; control returns normally to whoever called it. *)
Definition handler : Type := exchange -> exchange.

Definition run (m : M unit) : handler := fun s => snd (m s).

(** ** Requests and the outside world *)

Record request := {
  cookies : gmap string string;
  query : gmap string value;
  user : value
}.

(** [req.cookies.token], [req.query.code]: a missing key reads [undefined]. *)
Definition cookie (req : request) (name : string) : value :=
  match cookies req !! name with
  | Some s => VStr s
  | None => VUndefined
  end.

Definition param (req : request) (name : string) : value :=
  default VUndefined (query req !! name).

(** [req.user = u] *)
Definition set_user (req : request) (u : value) : request :=
  {| cookies := cookies req; query := query req; user := u |}.

(** Outcome of an axios call: the promise is fulfilled with a response
    whose [data] is the decoded body, or rejected. *)
Inductive axios_result : Type :=
| Fulfilled (data : value)
| Rejected.

(** What a request sees of the world: the clock in whole seconds since the
    epoch, as the token package reads it ([Math.floor(Date.now() / 1000)]),
    and how the remote services answer.  One request reads one clock
    value. *)
Record world := {
  now : Z;
  net : outbound -> axios_result
}.

(** [await axios(call)]: the call is logged and evaluates to [response.data]. *)
Definition axios (w : world) (call : outbound) : M value :=
  fun s =>
    let s' := {| res := res s; sent := sent s ++ [call] |} in
    match net w call with
    | Fulfilled data => (inr data, s')
    | Rejected => (inl AxiosError, s')
    end.

Local Open Scope js_scope.

(** [next()] from inside a middleware: the rest of the route runs to
    completion and control comes back; Express keeps what the next layer
    throws away from the caller. *)
Definition call (h : handler) : M unit := fun s => (inr tt, h s).

(** ** Configuration (src/index.js, lines 11-21) *)

Record Config := {
  clientId : value;
  clientSecret : value;
  authUrl : string;
  tokenUrl : string;
  redirectUrl : value;
  clientUrl : value;
  tokenSecret : value;
  tokenExpiration : Z;
  postUrl : string
}.

(** [process.env.NAME] *)
Definition process_env (env : gmap string string) (name : string) : value :=
  match env !! name with
  | Some s => VStr s
  | None => VUndefined
  end.

(** ** Signed tokens *)

(** The decoded segments of a compact token: the claims and the signature
    over them.  The header is fixed (HS256). *)
Record jws := {
  jws_payload : value;
  jws_signature : string
}.

(** A [UserProfile] of the data model. *)
Record UserProfile := {
  name : string;
  email : string;
  picture : string
}.

Definition profile_value (p : UserProfile) : value :=
  VObj [("name", VStr (name p)); ("email", VStr (email p)); ("picture", VStr (picture p))].

Definition message (text : string) : value := VObj [("message", VStr text)].

(** What the service takes from the token package: the keyed signature
    function (HMAC) and the compact serialisation of a token to and from a
    string. *)
Class TokenLib := {
  mac : string -> value -> string;
  jws_print : jws -> string;
  jws_parse : string -> option jws
}.

Section Gateway.

Context {lib : TokenLib}.

(** The process environment read at start-up. *)
Variable env : gmap string string.

Definition config : Config :=
  {| clientId := process_env env "GOOGLE_CLIENT_ID";
     clientSecret := process_env env "GOOGLE_CLIENT_SECRET";
     authUrl := "https://accounts.google.com/o/oauth2/auth";
     tokenUrl := "https://oauth2.googleapis.com/token";
     redirectUrl := process_env env "REDIRECT_URL";
     clientUrl := process_env env "CLIENT_URL";
     tokenSecret := process_env env "TOKEN_SECRET";
     tokenExpiration := 36000;
     postUrl := "https://jsonplaceholder.typicode.com/posts" |}.

(** The claims that are signed: the payload with the issue time [iat] and
    the expiration [exp] added, in JSON form. *)
Definition with_times (fields : list (string * value)) (clock expiresIn : Z) : value :=
  json_roundtrip (VObj (fields ++ [("iat", VNum clock); ("exp", VNum (clock + expiresIn))])).

Definition signed (key : string) (claims : value) : jws :=
  {| jws_payload := claims; jws_signature := mac key claims |}.

(** Modelled from the spec: [jwt.sign] of the jsonwebtoken package, which is
    not part of src/.  Sections 3 and 4.1 of the spec: a credential is the
    payload signed with the secret, with an expiration of the current time
    plus [expiresIn] seconds.  The issue time is recorded as [iat], as the
    package does.  Signing needs a non-empty secret and an object payload;
    the service only signs the literal [{ user }], and a payload that
    brings its own [iat] or [exp] is not signed by this model. *)
Definition jwt_sign (clock : Z) (payload secretOrPrivateKey : value) (expiresIn : Z)
  : result string :=
  match secretOrPrivateKey, payload with
  | VStr key, VObj fields =>
      if String.eqb key "" then inl SignError
      else
        match obj_lookup "exp" fields, obj_lookup "iat" fields with
        | None, None => inr (jws_print (signed key (with_times fields clock expiresIn)))
        | _, _ => inl SignError
        end
  | _, _ => inl SignError
  end.

(** Modelled from the spec: [jwt.verify] of the jsonwebtoken package, which
    is not part of src/.  Section 4.1 of the spec: it fails with
    [InvalidSignature] if the signature does not match (no string that is
    not a token signed with this secret has a matching signature), fails
    with [Expired] if past expiration, a token being expired from the second
    [exp] on, and otherwise returns the embedded claims. *)
Definition jwt_verify (clock : Z) (jwtString secretOrPublicKey : value) : result value :=
  match jwtString, secretOrPublicKey with
  | VStr raw, VStr key =>
      if String.eqb raw "" || String.eqb key "" then inl InvalidSignature
      else
        match jws_parse raw with
        | None => inl InvalidSignature
        | Some token =>
            if negb (String.eqb (jws_signature token) (mac key (jws_payload token)))
            then inl InvalidSignature
            else
              result_bind (get (jws_payload token) "exp") (fun exp =>
              match exp with
              | VUndefined => inr (jws_payload token)
              | VNum e => if e <=? clock then inl Expired else inr (jws_payload token)
              | _ => inl InvalidSignature
              end)
        end
  | _, _ => inl InvalidSignature
  end.

(** Modelled from the spec: [jwt.decode] of the jsonwebtoken package, which
    is not part of src/.  Section 4.3 of the spec: the claims of the
    identity token, without any signature check; [null] when the argument
    is not a token. *)
Definition jwt_decode (token : value) : value :=
  match token with
  | VStr raw =>
      match jws_parse raw with
      | Some t => jws_payload t
      | None => VNull
      end
  | _ => VNull
  end.

(** The token codec of the spec, as the service uses the package:
    [issue] is the call of line 122 (and 147), [verify] the call of line 64
    (and 146) followed by the read of [decoded.user]. *)
Definition issue (clock : Z) (profile : value) : result string :=
  jwt_sign clock (VObj [("user", profile)]) (tokenSecret config) (tokenExpiration config).

Definition verify (clock : Z) (raw : string) : result value :=
  result_bind (jwt_verify clock (VStr raw) (tokenSecret config)) (fun decoded =>
  get decoded "user").

(** ** Helpers of src/index.js *)

(** [getTokenParams], lines 43-51; the URL encoding of the parameters is
    left out. *)
Definition getTokenParams (code : value) : list (string * value) :=
  [("client_id", clientId config);
   ("client_secret", clientSecret config);
   ("code", code);
   ("grant_type", VStr "authorization_code");
   ("redirect_uri", redirectUrl config)].

(** The options of both [res.cookie] calls, lines 125 and 150. *)
Definition session_cookie : cookie_options :=
  {| maxAge := tokenExpiration config * 1000;
     httpOnly := true;
     sameSite := "None";
     secure := true |}.

Definition unauthorized : M unit :=
  res_status 401 ;; res_json (message "Unauthorized").

Definition server_error : M unit :=
  res_status 500 ;; res_json (message "Server error").

(** ** The [auth] middleware, lines 54-72 *)
Definition auth (w : world) (req : request) (next : request -> handler) : handler :=
  run (try_catch
         (let token := cookie req "token" in
          if negb (truthy token) then unauthorized
          else
            let* decoded := lift (jwt_verify (now w) token (tokenSecret config)) in
            let* u := lift (get decoded "user") in
            call (next (set_user req u)))
         (fun _ => unauthorized)).

(** ** [GET /auth/token], lines 96-132 *)
Definition auth_token (w : world) (req : request) : handler :=
  let code := param req "code" in
  if negb (truthy code) then
    run (res_status 400 ;; res_json (message "Authorization code must be provided"))
  else
    run (try_catch
           (let tokenParam := getTokenParams code in
            let* data := axios w {| method := "POST";
                                    url := tokenUrl config;
                                    form := tokenParam |} in
            let* id_token := lift (get data "id_token") in
            if negb (truthy id_token) then
              res_status 400 ;; res_json (message "Authorization error")
            else
              let claims := jwt_decode id_token in
              let* email := lift (get claims "email") in
              let* name := lift (get claims "name") in
              let* picture := lift (get claims "picture") in
              let user := VObj [("name", name); ("email", email); ("picture", picture)] in
              let* token := lift (jwt_sign (now w) (VObj [("user", user)])
                                    (tokenSecret config) (tokenExpiration config)) in
              res_cookie "token" token session_cookie ;;
              res_json (VObj [("user", user)]))
           (fun _ => server_error)).

(** ** [GET /auth/logged_in], lines 135-157 *)
Definition auth_logged_in (w : world) (req : request) : handler :=
  run (try_catch
         (let token := cookie req "token" in
          if negb (truthy token) then
            res_json (VObj [("loggedIn", VBool false)])
          else
            let* decoded := lift (jwt_verify (now w) token (tokenSecret config)) in
            let* u := lift (get decoded "user") in
            let* newToken := lift (jwt_sign (now w) (VObj [("user", u)])
                                     (tokenSecret config) (tokenExpiration config)) in
            res_cookie "token" newToken session_cookie ;;
            let* u' := lift (get decoded "user") in
            res_json (VObj [("loggedIn", VBool true); ("user", u')]))
         (fun _ => res_json (VObj [("loggedIn", VBool false)]))).

(** ** [POST /auth/logout], lines 160-163 *)
Definition auth_logout : handler :=
  run (res_clearCookie "token" ;; res_json (message "Logged out")).

(** ** [GET /user/posts], lines 166-175: the handler behind [auth] *)
Definition posts (w : world) (req : request) : handler :=
  run (try_catch
         (let* data := axios w {| method := "GET"; url := postUrl config; form := [] |} in
          let* first := lift (slice data 0 5) in
          res_json (VObj [("posts", first)]))
         (fun _ => server_error)).

Definition user_posts (w : world) (req : request) : handler :=
  auth w req (posts w).

(** ** Vocabulary of the properties *)

(** The secret is configured: [TOKEN_SECRET] is set and not empty. *)
Definition configured (key : string) : Prop :=
  env !! "TOKEN_SECRET" = Some key /\ key <> "".

(** The claims are unexpired at [clock]: no expiration, or a later one. *)
Definition unexpired (clock : Z) (claims : value) : Prop :=
  get claims "exp" = inr VUndefined \/
  exists e, get claims "exp" = inr (VNum e) /\ clock < e.

(** The request carries a session cookie whose credential verifies, at the
    time of [w], to the identity [u]. *)
Definition admitted (w : world) (req : request) (u : value) : Prop :=
  exists raw, cookies req !! "token" = Some raw /\ verify (now w) raw = inr u.

(** The credential the service issues at time [clock] for the identity [u]
    under the secret [key]. *)
Definition session (key : string) (u : value) (clock : Z) : jws :=
  signed key (with_times [("user", u)] clock 36000).

(** The expiration recorded in a raw credential. *)
Definition expiration (raw : string) : option Z :=
  match jws_parse raw with
  | Some token =>
      match get (jws_payload token) "exp" with
      | inr (VNum e) => Some e
      | _ => None
      end
  | None => None
  end.

(** The compact serialisation recovers the token [t] from its string. *)
Definition reads_back (t : jws) : Prop :=
  jws_print t <> "" /\ jws_parse (jws_print t) = Some t.

(** The request carries no session cookie, or one whose credential fails
    verification at the time of [w]. *)
Definition rejected (w : world) (req : request) : Prop :=
  cookies req !! "token" = None \/
  exists raw e, cookies req !! "token" = Some raw /\ verify (now w) raw = inl e.

(** The two outbound calls of the service. *)
Definition exchange_call (code : value) : outbound :=
  {| method := "POST"; url := tokenUrl config; form := getTokenParams code |}.

Definition posts_call : outbound :=
  {| method := "GET"; url := postUrl config; form := [] |}.

Definition logged_out : value := VObj [("loggedIn", VBool false)].

Definition logged_in_as (u : value) : value :=
  VObj [("loggedIn", VBool true); ("user", u)].

(** The refresh property as the spec words it: whenever the cookie of a
    request to [/auth/logged_in] verifies, the cookie written by the
    handler holds a credential that expires strictly later than the one it
    replaces. *)
Definition refresh_strictly_later (w : world) (req : request) : Prop :=
  forall raw decoded e_old,
    cookies req !! "token" = Some raw ->
    jwt_verify (now w) (VStr raw) (tokenSecret config) = inr decoded ->
    expiration raw = Some e_old ->
    exists newToken options e_new,
      setCookie (res (auth_logged_in w req fresh_exchange))
        = [SetCookie "token" newToken options] /\
      expiration newToken = Some e_new /\
      e_old < e_new.

End Gateway.

Arguments config : simpl never.
Arguments jwt_verify : simpl never.
Arguments jwt_sign : simpl never.

(** ** A small instance: one secret, one user, a table of tokens *)

Module Sample.

Definition env : gmap string string :=
  list_to_map [("TOKEN_SECRET", "s3cret"); ("GOOGLE_CLIENT_ID", "client-1")].

(** A stand-in for the keyed hash: the key followed by the e-mail address
    found in the claims. *)
Definition hash (key : string) (claims : value) : string :=
  let mail :=
    match result_bind (get claims "user") (fun u => get u "email") with
    | inr (VStr s) => s
    | _ => ""
    end in
  String.append key (String.append "/" mail).

Definition alice : UserProfile :=
  {| name := "Alice"; email := "alice@example.org"; picture := "https://example.org/a.png" |}.

Definition mallory : UserProfile :=
  {| name := "Mallory"; email := "mallory@example.org"; picture := "" |}.

(** The credential issued to [alice] at time [t]. *)
Definition cred (t : Z) : jws :=
  {| jws_payload := with_times [("user", profile_value alice)] t 36000;
     jws_signature := hash "s3cret" (with_times [("user", profile_value alice)] t 36000) |}.

(** The same claims signed with another secret. *)
Definition forged : jws :=
  {| jws_payload := jws_payload (cred 1000);
     jws_signature := hash "guess" (jws_payload (cred 1000)) |}.

(** [alice]'s signature under [mallory]'s claims. *)
Definition tampered : jws :=
  {| jws_payload := with_times [("user", profile_value mallory)] 1000 36000;
     jws_signature := jws_signature (cred 1000) |}.

(** A correctly signed token without a [user] claim. *)
Definition anonymous : jws :=
  {| jws_payload := VObj [("iat", VNum 1000); ("exp", VNum 37000)];
     jws_signature := hash "s3cret" (VObj [("iat", VNum 1000); ("exp", VNum 37000)]) |}.

(** An identity token of the provider. *)
Definition id_token : jws :=
  {| jws_payload := VObj [("email", VStr "alice@example.org"); ("name", VStr "Alice");
                          ("picture", VStr "https://example.org/a.png")];
     jws_signature := "provider" |}.

Definition print (t : jws) : string :=
  match get (jws_payload t) "iat" with
  | inr (VNum i) => if i =? 1000 then "cred.1000" else "cred.2000"
  | _ => "cred.2000"
  end.

Definition parse (raw : string) : option jws :=
  if String.eqb raw "cred.1000" then Some (cred 1000)
  else if String.eqb raw "cred.2000" then Some (cred 2000)
  else if String.eqb raw "forged" then Some forged
  else if String.eqb raw "tampered" then Some tampered
  else if String.eqb raw "anonymous" then Some anonymous
  else if String.eqb raw "id.alice" then Some id_token
  else None.

Definition lib : TokenLib :=
  {| mac := hash; jws_print := print; jws_parse := parse |}.

Definition with_cookie (raw : string) : request :=
  {| cookies := list_to_map [("token", raw)]; query := empty; user := VUndefined |}.

Definition with_code (code : string) : request :=
  {| cookies := empty; query := list_to_map [("code", VStr code)]; user := VUndefined |}.

Definition no_cookie : request :=
  {| cookies := empty; query := empty; user := VUndefined |}.

Definition twenty : list value := map (fun i => VNum (Z.of_nat i)) (seq 0 20).

(** The provider answers with an identity token, the resource API with
    twenty items. *)
Definition online (t : Z) : world :=
  {| now := t;
     net := fun c =>
       if String.eqb (method c) "POST"
       then Fulfilled (VObj [("id_token", VStr "id.alice")])
       else Fulfilled (VArr twenty) |}.

(** The provider answers without an identity token. *)
Definition stingy (t : Z) : world :=
  {| now := t; net := fun _ => Fulfilled (VObj [("error", VStr "invalid_grant")]) |}.

Definition offline (t : Z) : world :=
  {| now := t; net := fun _ => Rejected |}.

(** A protected handler that answers with the identity it was given. *)
Definition whoami (r : request) : handler := run (res_json (user r)).

End Sample.

(** ** The remaining routes and the routing table *)

(** What the service takes from the query-string package: the encoding of
    a parameter object as a query string. *)
Class QueryString := {
  stringify : list (string * value) -> string
}.

(** The routes registered on the application, lines 89, 96, 135, 160 and
    166. *)
Inductive route : Type :=
| GetAuthUrl
| GetAuthToken
| GetAuthLoggedIn
| PostAuthLogout
| GetUserPosts.

Section Routes.

Context {lib : TokenLib} {qs : QueryString}.

Variable env : gmap string string.

(** [getAuthUrl], lines 75-86 *)
Definition getAuthUrl : string :=
  String.append (authUrl (config env))
    (String.append "?"
       (stringify [("client_id", clientId (config env));
                   ("redirect_uri", redirectUrl (config env));
                   ("response_type", VStr "code");
                   ("scope", VStr "openid profile email");
                   ("access_type", VStr "offline");
                   ("state", VStr "standard_oauth");
                   ("prompt", VStr "consent")])).

(** [GET /auth/url], lines 89-93 *)
Definition auth_url : handler :=
  let authUrl := getAuthUrl in
  run (res_json (VObj [("url", VStr authUrl)])).

(** The handler behind each route. *)
Definition app (r : route) (w : world) (req : request) : handler :=
  match r with
  | GetAuthUrl => auth_url
  | GetAuthToken => auth_token env w req
  | GetAuthLoggedIn => auth_logged_in env w req
  | PostAuthLogout => auth_logout
  | GetUserPosts => user_posts env w req
  end.

(** The answer of the provider holds an identity token: [data.id_token]
    reads a truthy value. *)
Definition holds_id_token (data : value) : Prop :=
  exists v, get data "id_token" = inr v /\ truthy v = true.

(** The second case of the code exchange as the spec words it: whenever
    the exchange succeeds and the response holds no identity token, the
    answer is 400 and no cookie is set. *)
Definition missing_id_token_is_400 (w : world) (req : request) : Prop :=
  forall data,
    truthy (param req "code") = true ->
    net w (exchange_call env (param req "code")) = Fulfilled data ->
    ~ holds_id_token data ->
    statusCode (res (auth_token env w req fresh_exchange)) = 400 /\
    setCookie (res (auth_token env w req fresh_exchange)) = [].

(** The only cookie headers the service writes. *)
Definition session_header (op : cookie_op) : Prop :=
  (exists credential, op = SetCookie "token" credential (session_cookie env)) \/
  op = ClearCookie "token".

End Routes.

(** A finished exchange: status, body, cookie headers, outbound calls. *)
Definition reply (status : Z) (content : value) (headers : list cookie_op)
    (calls : list outbound) : exchange :=
  {| res := {| statusCode := status; setCookie := headers; body := Some content |};
     sent := calls |}.

(** A client that obeys the [Set-Cookie] headers of a response: a cookie
    that is set replaces the stored one, a cleared cookie is dropped. *)
Definition obey (jar : gmap string string) (op : cookie_op) : gmap string string :=
  match op with
  | SetCookie name val _ => <[name := val]> jar
  | ClearCookie name => delete name jar
  end.

Definition follow (r : response) (jar : gmap string string) : gmap string string :=
  foldl obey jar (setCookie r).

(** The next request of a client: it carries the cookies of its jar. *)
Definition carrying (jar : gmap string string) (q : gmap string value) : request :=
  {| cookies := jar; query := q; user := VUndefined |}.

(** ** More of the small instance *)

Module Cases.

(** A stand-in for the query encoder: the keys, in order. *)
Definition keys : QueryString :=
  {| stringify := fun ps => String.concat "&" (map fst ps) |}.

(** The provider answers with something that is no identity token. *)
Definition garbled (t : Z) : world :=
  {| now := t; net := fun _ => Fulfilled (VObj [("id_token", VStr "not-a-token")]) |}.

(** Both services answer with an empty JSON [null]. *)
Definition hollow (t : Z) : world :=
  {| now := t; net := fun _ => Fulfilled VNull |}.

(** The resource API answers with an object instead of a list. *)
Definition wrapped (t : Z) : world :=
  {| now := t; net := fun _ => Fulfilled (VObj [("items", VArr Sample.twenty)]) |}.


End Cases.

(** * Properties *)

(** The goal or hypothesis is closed and settled by evaluation. *)
Ltac by_computation := vm_compute; reflexivity.

(** A branch of a handler that leaves the list of cookie headers empty
    contradicts the assumption that a cookie was set. *)
Ltac no_cookie_set :=
  let H := fresh "Hset" in intros H; exfalso; apply H; reflexivity.

Section Facts.

Context {lib : TokenLib}.
Variable env : gmap string string.

(** ** Values *)

Lemma get_defined v k x : get v k = inr x -> forall k', exists y, get v k' = inr y.
Proof.
  destruct v; simpl; intros H k'; try discriminate; eauto.
Qed.

Lemma truthy_cookie req n :
  truthy (cookie req n) = true <->
  exists raw, cookies req !! n = Some raw /\ raw <> "".
Proof.
  unfold cookie. destruct (cookies req !! n) as [raw|]; simpl.
  - rewrite negb_true_iff, String.eqb_neq. split.
    + intros H. exists raw. auto.
    + intros (raw' & [= <-] & H). exact H.
  - split; [discriminate | intros (raw & [=] & _)].
Qed.

(** ** The token codec *)

Lemma configured_secret key : configured env key -> tokenSecret (config env) = VStr key.
Proof. intros [H _]. unfold config, process_env. simpl. rewrite H. reflexivity. Qed.

Lemma jwt_verify_inr clock tok sec decoded :
  jwt_verify clock tok sec = inr decoded ->
  exists raw key t,
    tok = VStr raw /\ sec = VStr key /\ raw <> "" /\ key <> "" /\
    jws_parse raw = Some t /\
    jws_signature t = mac key (jws_payload t) /\
    jws_payload t = decoded /\
    unexpired clock decoded.
Proof.
  unfold jwt_verify.
  destruct tok as [| | | |raw| |]; try discriminate.
  destruct sec as [| | | |key| |]; try discriminate.
  destruct (String.eqb raw "") eqn:Hraw; [discriminate|].
  destruct (String.eqb key "") eqn:Hkey; [discriminate|]. simpl.
  destruct (jws_parse raw) as [t|] eqn:Hparse; [|discriminate].
  destruct (String.eqb (jws_signature t) (mac key (jws_payload t))) eqn:Hsig;
    [|discriminate]. simpl.
  destruct (get (jws_payload t) "exp") as [e|exp] eqn:Hexp; [discriminate|]. simpl.
  intros H. exists raw, key, t.
  apply String.eqb_neq in Hraw, Hkey. apply String.eqb_eq in Hsig.
  assert (Hd : jws_payload t = decoded /\ unexpired clock (jws_payload t)).
  { unfold unexpired. rewrite Hexp.
    destruct exp as [| | |e| | |]; try discriminate.
    - injection H as <-. auto.
    - destruct (e <=? clock) eqn:Hle; [discriminate|].
      injection H as <-. apply Z.leb_gt in Hle. eauto. }
  destruct Hd as [<- Hun]. repeat split; auto.
Qed.

Lemma jwt_verify_valid clock raw key t :
  raw <> "" -> key <> "" ->
  jws_parse raw = Some t ->
  jws_signature t = mac key (jws_payload t) ->
  unexpired clock (jws_payload t) ->
  jwt_verify clock (VStr raw) (VStr key) = inr (jws_payload t).
Proof.
  intros Hraw Hkey Hparse Hsig Hun. unfold jwt_verify.
  apply String.eqb_neq in Hraw, Hkey. rewrite Hraw, Hkey, Hparse. simpl.
  rewrite Hsig, String.eqb_refl. simpl.
  destruct Hun as [Hexp | (e & Hexp & Hlt)]; rewrite Hexp; simpl; [reflexivity|].
  apply Z.leb_gt in Hlt. rewrite Hlt. reflexivity.
Qed.

Lemma jwt_verify_mismatch clock raw key t :
  jws_parse raw = Some t ->
  jws_signature t <> mac key (jws_payload t) ->
  jwt_verify clock (VStr raw) (VStr key) = inl InvalidSignature.
Proof.
  intros Hparse Hsig. unfold jwt_verify.
  destruct (String.eqb raw "" || String.eqb key ""); [reflexivity|].
  rewrite Hparse. apply String.eqb_neq in Hsig. rewrite Hsig. reflexivity.
Qed.

Lemma jwt_verify_expired clock raw key t e :
  raw <> "" -> key <> "" ->
  jws_parse raw = Some t ->
  jws_signature t = mac key (jws_payload t) ->
  get (jws_payload t) "exp" = inr (VNum e) ->
  e <= clock ->
  jwt_verify clock (VStr raw) (VStr key) = inl Expired.
Proof.
  intros Hraw Hkey Hparse Hsig Hexp Hle. unfold jwt_verify.
  apply String.eqb_neq in Hraw, Hkey. rewrite Hraw, Hkey, Hparse. simpl.
  rewrite Hsig, String.eqb_refl. simpl. rewrite Hexp. simpl.
  apply Z.leb_le in Hle. rewrite Hle. reflexivity.
Qed.

Lemma jwt_sign_session clock key u :
  key <> "" ->
  jwt_sign clock (VObj [("user", u)]) (VStr key) 36000
  = inr (jws_print (session key u clock)).
Proof.
  intros Hkey. unfold jwt_sign. apply String.eqb_neq in Hkey. rewrite Hkey.
  reflexivity.
Qed.

Lemma session_exp key u clock :
  get (jws_payload (session key u clock)) "exp" = inr (VNum (clock + 36000)).
Proof.
  unfold session, signed, with_times. simpl.
  destruct u; reflexivity.
Qed.

(** ** Admission *)

Lemma admitted_or_rejected w req :
  (exists u, admitted env w req u) \/ rejected env w req.
Proof.
  unfold admitted, rejected.
  destruct (cookies req !! "token") as [raw|] eqn:Hc; [|auto].
  destruct (verify env (now w) raw) as [e|u] eqn:Hv; eauto 6.
Qed.

Lemma admitted_not_rejected w req u :
  admitted env w req u -> rejected env w req -> False.
Proof.
  intros (raw & Hc & Hv) [Hn | (raw' & e & Hc' & Hv')]; congruence.
Qed.

Lemma verify_inr clock raw u :
  verify env clock raw = inr u ->
  exists decoded,
    jwt_verify clock (VStr raw) (tokenSecret (config env)) = inr decoded /\
    get decoded "user" = inr u /\ raw <> "".
Proof.
  unfold verify. intros H.
  destruct (jwt_verify clock (VStr raw) (tokenSecret (config env)))
    as [e|decoded] eqn:Hv; [discriminate|].
  exists decoded. repeat split; auto.
  apply jwt_verify_inr in Hv.
  destruct Hv as (raw' & _ & _ & [= <-] & _ & Hraw & _). exact Hraw.
Qed.

Lemma verify_inl_user clock raw e :
  verify env clock raw = inl e ->
  exists e', jwt_verify clock (VStr raw) (tokenSecret (config env)) = inl e'.
Proof.
  unfold verify. intros H.
  destruct (jwt_verify clock (VStr raw) (tokenSecret (config env)))
    as [e'|decoded] eqn:Hv; [eauto|].
  simpl in H. apply jwt_verify_inr in Hv.
  destruct Hv as (_ & _ & t & _ & _ & _ & _ & _ & _ & <- & Hun).
  assert (Hexp : exists x, get (jws_payload t) "exp" = inr x)
    by (destruct Hun as [Hx | (x & Hx & _)]; eauto).
  destruct Hexp as [x Hx].
  destruct (get_defined _ _ _ Hx "user") as [y Hy]. congruence.
Qed.

Lemma auth_admitted w req next s u :
  admitted env w req u -> auth env w req next s = next (set_user req u) s.
Proof.
  intros (raw & Hc & Hv).
  apply verify_inr in Hv. destruct Hv as (decoded & Hv & Hu & Hraw).
  unfold auth, run, try_catch, cookie. rewrite Hc. cbv zeta. cbn [truthy].
  apply String.eqb_neq in Hraw. rewrite Hraw. cbn [negb].
  unfold bind, lift. rewrite Hv, Hu. reflexivity.
Qed.

Lemma auth_rejected w req next s :
  rejected env w req -> auth env w req next s = run unauthorized s.
Proof.
  intros [Hc | (raw & e & Hc & Hv)];
    unfold auth, run, try_catch, cookie; rewrite Hc; cbv zeta; cbn [truthy negb];
    [reflexivity|].
  destruct (String.eqb raw ""); cbn [negb]; [reflexivity|].
  apply verify_inl_user in Hv. destruct Hv as [e' Hv].
  unfold bind, lift. rewrite Hv. reflexivity.
Qed.

(** C3: the middleware answers 401 Unauthorized, without running the
    wrapped handler, when the request carries no session cookie or one
    whose credential fails verification, whatever the failure; when the
    credential verifies it attaches the embedded identity to the request
    and runs the wrapped handler on it.  Seen from outside (with a handler
    that does nothing) the status is 401 exactly in the first case. *)
Theorem auth_gate (w : world) (req : request) (next : request -> handler)
    (s : exchange) :
  (rejected env w req ->
     auth env w req next s = run unauthorized s /\
     statusCode (res (auth env w req next s)) = 401 /\
     body (res (auth env w req next s)) = Some (message "Unauthorized")) /\
  (forall u, admitted env w req u ->
     auth env w req next s = next (set_user req u) s /\
     user (set_user req u) = u) /\
  (statusCode (res (auth env w req (fun _ x => x) fresh_exchange)) = 401
   <-> rejected env w req).
Proof.
  split; [|split].
  - intros Hr. rewrite (auth_rejected w req next s Hr). auto.
  - intros u Ha. rewrite (auth_admitted w req next s u Ha). auto.
  - split.
    + intros H401. destruct (admitted_or_rejected w req) as [[u Ha] | Hr]; [|exact Hr].
      rewrite (auth_admitted _ _ _ _ _ Ha) in H401. discriminate.
    + intros Hr. rewrite (auth_rejected _ _ _ _ Hr). reflexivity.
Qed.

(** C7: the middleware does not touch the session cookie.  When it rejects,
    the response gets a status and a body but no [Set-Cookie] header and
    no outbound call is made; when it admits, the exchange is handed
    unchanged to the wrapped handler and the request keeps its cookies.
    A second pass with the same cookie, at any time at which the
    credential is still unexpired, takes the same decision. *)
Theorem auth_read_only (w : world) (req : request) (next : request -> handler)
    (s : exchange) :
  (rejected env w req ->
     setCookie (res (auth env w req next s)) = setCookie (res s) /\
     sent (auth env w req next s) = sent s) /\
  (forall u, admitted env w req u ->
     auth env w req next s = next (set_user req u) s /\
     cookies (set_user req u) = cookies req) /\
  (forall w' raw decoded,
     cookies req !! "token" = Some raw ->
     jwt_verify (now w) (VStr raw) (tokenSecret (config env)) = inr decoded ->
     unexpired (now w') decoded ->
     auth env w' req next s = auth env w req next s).
Proof.
  split; [|split].
  - intros Hr. rewrite (auth_rejected w req next s Hr). auto.
  - intros u Ha. rewrite (auth_admitted w req next s u Ha). auto.
  - intros w' raw decoded Hc Hv Hun.
    pose proof Hv as Hv0.
    apply jwt_verify_inr in Hv.
    destruct Hv as (raw' & key & t & [= <-] & Hsec & Hraw & Hkey & Hp & Hs & <- & Hun0).
    assert (Hx : exists x, get (jws_payload t) "exp" = inr x)
      by (destruct Hun0 as [Hx | (x & Hx & _)]; eauto).
    destruct Hx as [x Hx]. destruct (get_defined _ _ _ Hx "user") as [u Hu].
    rewrite (auth_admitted w' req next s u), (auth_admitted w req next s u);
      [reflexivity | |]; exists raw; (split; [exact Hc|]); unfold verify.
    + rewrite Hv0. exact Hu.
    + rewrite Hsec, (jwt_verify_valid (now w') raw key t); auto.
Qed.


(** ** The login-status check *)

Lemma admitted_configured w req u :
  admitted env w req u -> exists key, configured env key.
Proof.
  intros (raw & _ & Hv). apply verify_inr in Hv.
  destruct Hv as (decoded & Hv & _ & _). apply jwt_verify_inr in Hv.
  destruct Hv as (_ & key & _ & _ & Hsec & _ & Hkey & _).
  exists key. split; [|exact Hkey].
  unfold config, process_env in Hsec. simpl in Hsec.
  destruct (env !! "TOKEN_SECRET"); congruence.
Qed.

Lemma issue_session key u clock :
  configured env key -> issue env clock u = inr (jws_print (session key u clock)).
Proof.
  intros Hc. unfold issue. rewrite (configured_secret key Hc).
  apply jwt_sign_session. apply Hc.
Qed.

Lemma logged_in_rejected w req s :
  rejected env w req ->
  auth_logged_in env w req s = run (res_json logged_out) s.
Proof.
  intros [Hc | (raw & e & Hc & Hv)];
    unfold auth_logged_in, run, try_catch, cookie; rewrite Hc; cbv zeta;
    cbn [truthy negb]; [reflexivity|].
  destruct (String.eqb raw ""); cbn [negb]; [reflexivity|].
  apply verify_inl_user in Hv. destruct Hv as [e' Hv].
  unfold bind, lift. rewrite Hv. reflexivity.
Qed.

Lemma logged_in_admitted w req s u newToken :
  admitted env w req u ->
  issue env (now w) u = inr newToken ->
  auth_logged_in env w req s
  = run (res_cookie "token" newToken (session_cookie env) ;;
         res_json (logged_in_as u)) s.
Proof.
  intros (raw & Hc & Hv) Hi.
  apply verify_inr in Hv. destruct Hv as (decoded & Hv & Hu & Hraw).
  unfold auth_logged_in, run, try_catch, cookie. rewrite Hc. cbv zeta. cbn [truthy].
  apply String.eqb_neq in Hraw. rewrite Hraw. cbn [negb].
  unfold issue in Hi. unfold bind, lift. rewrite Hv, Hu, Hi. cbn. rewrite ?Hu.
  reflexivity.
Qed.

(** C4: the login-status check leaves the status of the response alone, so
    it answers 200 on every request: with [{loggedIn: false}] when the
    cookie is absent or its credential fails verification for whatever
    reason, with [{loggedIn: true, user}] when the credential verifies. *)
Theorem logged_in_always_200 (w : world) (req : request) (s : exchange) :
  statusCode (res (auth_logged_in env w req s)) = statusCode (res s) /\
  statusCode (res (auth_logged_in env w req fresh_exchange)) = 200 /\
  (rejected env w req ->
     body (res (auth_logged_in env w req s)) = Some logged_out) /\
  (forall u, admitted env w req u ->
     body (res (auth_logged_in env w req s)) = Some (logged_in_as u)).
Proof.
  assert (Hst : forall s0,
             statusCode (res (auth_logged_in env w req s0)) = statusCode (res s0)).
  { intros s0. destruct (admitted_or_rejected w req) as [[u Ha] | Hr].
    - destruct (admitted_configured w req u Ha) as [key Hk].
      rewrite (logged_in_admitted w req s0 u _ Ha (issue_session key u (now w) Hk)).
      reflexivity.
    - rewrite (logged_in_rejected w req s0 Hr). reflexivity. }
  split; [apply Hst | split; [apply (Hst fresh_exchange) | split]].
  - intros Hr. rewrite (logged_in_rejected w req s Hr). reflexivity.
  - intros u Ha. destruct (admitted_configured w req u Ha) as [key Hk].
    rewrite (logged_in_admitted w req s u _ Ha (issue_session key u (now w) Hk)).
    reflexivity.
Qed.

(** C10: when the cookie is absent or fails verification the login-status
    check writes no [Set-Cookie] header, neither a new value nor a
    clearing one; conversely a response that reports [{loggedIn: false}]
    carries the cookie headers it started with. *)
Theorem logged_in_failure_keeps_cookie (w : world) (req : request) (s : exchange) :
  (rejected env w req ->
     setCookie (res (auth_logged_in env w req s)) = setCookie (res s) /\
     body (res (auth_logged_in env w req s)) = Some logged_out) /\
  (body (res (auth_logged_in env w req s)) = Some logged_out ->
     setCookie (res (auth_logged_in env w req s)) = setCookie (res s)).
Proof.
  split.
  - intros Hr. rewrite (logged_in_rejected w req s Hr). auto.
  - destruct (admitted_or_rejected w req) as [[u Ha] | Hr].
    + destruct (admitted_configured w req u Ha) as [key Hk].
      rewrite (logged_in_admitted w req s u _ Ha (issue_session key u (now w) Hk)).
      discriminate.
    + rewrite (logged_in_rejected w req s Hr). auto.
Qed.

(** C5, as the code has it: when the cookie verifies, the login-status
    check issues a credential for the same identity at the current time,
    hence expiring 36000 seconds from now, and writes it as the one
    [Set-Cookie] header.  The new expiration is never earlier than that of
    a replaced credential that was issued with the same window at a time
    not after now, and it is strictly later when that credential was issued
    in an earlier second. *)
Theorem logged_in_refresh (w : world) (req : request) (u : value) (key : string) :
  admitted env w req u ->
  configured env key ->
  reads_back (session key u (now w)) ->
  exists newToken,
    issue env (now w) u = inr newToken /\
    setCookie (res (auth_logged_in env w req fresh_exchange))
      = [SetCookie "token" newToken (session_cookie env)] /\
    maxAge (session_cookie env) = 36000 * 1000 /\
    body (res (auth_logged_in env w req fresh_exchange)) = Some (logged_in_as u) /\
    expiration newToken = Some (now w + 36000) /\
    (forall raw t0,
       cookies req !! "token" = Some raw ->
       expiration raw = Some (t0 + 36000) ->
       exists e_new,
         expiration newToken = Some e_new /\
         (t0 <= now w -> t0 + 36000 <= e_new) /\
         (t0 < now w -> t0 + 36000 < e_new) /\
         (t0 = now w -> t0 + 36000 = e_new)).
Proof.
  intros Ha Hk [_ Hback].
  exists (jws_print (session key u (now w))).
  pose proof (issue_session key u (now w) Hk) as Hi.
  rewrite (logged_in_admitted w req fresh_exchange u _ Ha Hi).
  assert (Hexp : expiration (jws_print (session key u (now w))) = Some (now w + 36000)).
  { unfold expiration. rewrite Hback, session_exp. reflexivity. }
  split; [exact Hi|]. split; [reflexivity|]. split; [reflexivity|].
  split; [reflexivity|]. split; [exact Hexp|].
  intros raw t0 _ _. exists (now w + 36000).
  split; [exact Hexp|]. lia.
Qed.

(** ** The code exchange *)

(** C6, as the code has it: without a [code] parameter (absent or empty)
    the answer is 400, no cookie is set and the provider is not called;
    when the provider answers with a body other than [null] that holds no
    identity token (the read of [id_token] gives a falsy value) the answer
    is 400 and no cookie is set; when it answers with a [null] body the
    read of [id_token] throws and the answer is 500 with no cookie; when
    the call to the provider fails the answer is 500 and no cookie is set;
    a cookie is set only after the provider answered with an identity
    token, and then it holds a credential issued now, the status is 200
    and the body is [{user}]. *)
Theorem auth_token_outcomes (w : world) (req : request) :
  let code := param req "code" in
  let out := auth_token env w req fresh_exchange in
  (truthy code = false ->
     statusCode (res out) = 400 /\ setCookie (res out) = [] /\ sent out = []) /\
  (forall data v,
     truthy code = true ->
     net w (exchange_call env code) = Fulfilled data ->
     get data "id_token" = inr v ->
     truthy v = false ->
     statusCode (res out) = 400 /\ setCookie (res out) = []) /\
  (forall fields,
     truthy code = true ->
     net w (exchange_call env code) = Fulfilled (VObj fields) ->
     obj_lookup "id_token" fields = None ->
     statusCode (res out) = 400 /\ setCookie (res out) = []) /\
  (truthy code = true ->
     net w (exchange_call env code) = Rejected ->
     statusCode (res out) = 500 /\ setCookie (res out) = []) /\
  (setCookie (res out) <> [] ->
     truthy code = true /\
     exists data id_token u newToken,
       net w (exchange_call env code) = Fulfilled data /\
       get data "id_token" = inr id_token /\
       truthy id_token = true /\
       issue env (now w) u = inr newToken /\
       setCookie (res out) = [SetCookie "token" newToken (session_cookie env)] /\
       statusCode (res out) = 200 /\
       body (res out) = Some (VObj [("user", u)])) /\
  (forall data,
     truthy code = true ->
     net w (exchange_call env code) = Fulfilled data ->
     data <> VNull -> data <> VUndefined ->
     ~ holds_id_token data ->
     statusCode (res out) = 400 /\ setCookie (res out) = []) /\
  (forall data,
     truthy code = true ->
     net w (exchange_call env code) = Fulfilled data ->
     data = VNull \/ data = VUndefined ->
     statusCode (res out) = 500 /\ setCookie (res out) = []).
Proof.
  intros code out. subst code out.
  assert (Hmissing : forall data v,
            truthy (param req "code") = true ->
            net w (exchange_call env (param req "code")) = Fulfilled data ->
            get data "id_token" = inr v ->
            truthy v = false ->
            statusCode (res (auth_token env w req fresh_exchange)) = 400 /\
            setCookie (res (auth_token env w req fresh_exchange)) = []).
  { intros data v Hcode Hnet Hid Hv. unfold auth_token. rewrite Hcode. cbn [negb].
    unfold run, try_catch, bind, axios, lift. unfold exchange_call in Hnet.
    rewrite Hnet, Hid, Hv. cbn. auto. }
  split; [|split; [|split; [|split; [|split; [|split]]]]].
  - intros Hcode. unfold auth_token. rewrite Hcode. cbn. auto.
  - exact Hmissing.
  - intros fields Hcode Hnet Hnone.
    apply (Hmissing (VObj fields) VUndefined Hcode Hnet); [|reflexivity].
    simpl. rewrite Hnone. reflexivity.
  - intros Hcode Hnet. unfold auth_token. rewrite Hcode. cbn [negb].
    unfold run, try_catch, bind, axios, lift. unfold exchange_call in Hnet.
    rewrite Hnet. cbn. auto.
  - unfold auth_token, exchange_call.
    destruct (truthy (param req "code")) eqn:Hcode; cbn [negb];
      [|no_cookie_set].
    unfold run, try_catch, bind, axios, lift.
    destruct (net w _) as [data|] eqn:Hnet;
      [|no_cookie_set].
    destruct (get data "id_token") as [e|id_token] eqn:Hid;
      [no_cookie_set|].
    destruct (truthy id_token) eqn:Htr; cbn [negb];
      [|no_cookie_set].
    destruct (get (jwt_decode id_token) "email") as [e|mail] eqn:Hm;
      [no_cookie_set|].
    destruct (get (jwt_decode id_token) "name") as [e|nm] eqn:Hn;
      [no_cookie_set|].
    destruct (get (jwt_decode id_token) "picture") as [e|pic] eqn:Hp;
      [no_cookie_set|].
    destruct (jwt_sign (now w)
                (VObj [("user", VObj [("name", nm); ("email", mail); ("picture", pic)])])
                (tokenSecret (config env)) (tokenExpiration (config env)))
      as [e|tok] eqn:Hs;
      [no_cookie_set|].
    intros _. split; [reflexivity|].
    exists data, id_token, (VObj [("name", nm); ("email", mail); ("picture", pic)]), tok.
    repeat split; auto.
  - intros data Hcode Hnet Hnull Hundef Hnone.
    destruct (get data "id_token") as [e|v] eqn:Hid;
      [destruct data; simpl in Hid; congruence|].
    apply (Hmissing data v Hcode Hnet Hid).
    destruct (truthy v) eqn:Hv; [|reflexivity].
    destruct Hnone. exists v. auto.
  - intros data Hcode Hnet Hdata. unfold auth_token. rewrite Hcode. cbn [negb].
    unfold run, try_catch, bind, axios, lift. unfold exchange_call in Hnet.
    rewrite Hnet. destruct Hdata as [-> | ->]; cbn; auto.
Qed.

(** ** The protected resource *)

(** C8: for an admitted request, when the resource API answers with a list
    the answer is 200 with the first five entries of that list, in order,
    or the whole list when it is shorter; when the call fails the answer
    is 500.  Either way exactly one call was made. *)
Theorem user_posts_first_five (w : world) (req : request) (u : value) :
  admitted env w req u ->
  let out := user_posts env w req fresh_exchange in
  (forall items,
     net w (posts_call env) = Fulfilled (VArr items) ->
     statusCode (res out) = 200 /\
     body (res out) = Some (VObj [("posts", VArr (take 5 items))]) /\
     length (take 5 items) = Nat.min 5 (length items) /\
     sent out = [posts_call env]) /\
  (net w (posts_call env) = Rejected ->
     statusCode (res out) = 500 /\
     body (res out) = Some (message "Server error") /\
     sent out = [posts_call env]).
Proof.
  intros Ha out. subst out. unfold user_posts.
  rewrite (auth_admitted w req (posts env w) fresh_exchange u Ha).
  unfold posts, posts_call, run, try_catch, bind, axios, lift.
  split.
  - intros items Hnet. rewrite Hnet.
    split; [reflexivity | split; [reflexivity | split; [apply length_take | reflexivity]]].
  - intros Hnet. rewrite Hnet.
    split; [reflexivity | split; reflexivity].
Qed.

(** ** Round trip of the token codec *)

(** C1: for every valid UserProfile [P], the credential issued for [P] under
    the configured secret verifies, at any time before its expiration
    (36000 seconds after issuance), to [P] itself. *)
Theorem issue_verify_roundtrip (P : UserProfile) (key : string) (t t' : Z) :
  configured env key ->
  reads_back (session key (profile_value P) t) ->
  t' < t + 36000 ->
  exists raw,
    issue env t (profile_value P) = inr raw /\
    verify env t' raw = inr (profile_value P).
Proof.
  intros Hc [Hne Hback] Hlt.
  exists (jws_print (session key (profile_value P) t)).
  unfold issue, verify. rewrite (configured_secret key Hc).
  destruct Hc as [_ Hkey]. split.
  - apply jwt_sign_session. exact Hkey.
  - rewrite (jwt_verify_valid t' _ key (session key (profile_value P) t));
      try assumption; try reflexivity.
    right. exists (t + 36000). split; [reflexivity | exact Hlt].
Qed.

(** ** Outcomes of verification *)

(** C2: under the configured secret, verification of a raw string fails
    with [InvalidSignature] when the string is a token whose signature is
    not the one the secret gives for its claims, in particular when it was
    signed with another secret or when the claims were changed after
    signing, and when it is no token at all; it fails with [Expired] when
    the signature matches and the expiration has been reached; otherwise it
    returns the embedded identity.  It succeeds only on a token signed with
    the configured secret and unexpired. *)
Theorem verify_outcomes (key : string) (clock : Z) (raw : string) :
  configured env key ->
  (forall t, jws_parse raw = Some t ->
             jws_signature t <> mac key (jws_payload t) ->
             verify env clock raw = inl InvalidSignature) /\
  (forall key' claims, mac key' claims <> mac key claims ->
             jws_parse raw = Some (signed key' claims) ->
             verify env clock raw = inl InvalidSignature) /\
  (forall claims claims', mac key claims' <> mac key claims ->
             jws_parse raw
               = Some {| jws_payload := claims'; jws_signature := mac key claims |} ->
             verify env clock raw = inl InvalidSignature) /\
  (jws_parse raw = None -> verify env clock raw = inl InvalidSignature) /\
  (forall t e, raw <> "" -> jws_parse raw = Some t ->
             jws_signature t = mac key (jws_payload t) ->
             get (jws_payload t) "exp" = inr (VNum e) ->
             e <= clock ->
             verify env clock raw = inl Expired) /\
  (forall t, raw <> "" -> jws_parse raw = Some t ->
             jws_signature t = mac key (jws_payload t) ->
             unexpired clock (jws_payload t) ->
             verify env clock raw = get (jws_payload t) "user") /\
  (forall u, verify env clock raw = inr u ->
             exists t, jws_parse raw = Some t /\
                       jws_signature t = mac key (jws_payload t) /\
                       unexpired clock (jws_payload t) /\
                       get (jws_payload t) "user" = inr u).
Proof.
  intros Hc. unfold verify. rewrite (configured_secret key Hc).
  destruct Hc as [_ Hkey].
  assert (Hbad : forall t, jws_parse raw = Some t ->
                   jws_signature t <> mac key (jws_payload t) ->
                   result_bind (jwt_verify clock (VStr raw) (VStr key))
                     (fun decoded => get decoded "user") = inl InvalidSignature).
  { intros t Hp Hs. rewrite (jwt_verify_mismatch clock raw key t Hp Hs). reflexivity. }
  repeat split.
  - exact Hbad.
  - intros key' claims Hne Hp. apply (Hbad _ Hp). simpl. exact Hne.
  - intros claims claims' Hne Hp. apply (Hbad _ Hp). simpl. congruence.
  - intros Hp. unfold jwt_verify.
    destruct (String.eqb raw "" || String.eqb key ""); [reflexivity|].
    rewrite Hp. reflexivity.
  - intros t e Hraw Hp Hs He Hle.
    rewrite (jwt_verify_expired clock raw key t e); auto.
  - intros t Hraw Hp Hs Hun.
    rewrite (jwt_verify_valid clock raw key t); auto.
  - intros u H.
    destruct (jwt_verify clock (VStr raw) (VStr key)) as [e|decoded] eqn:Hv;
      [discriminate|]. simpl in H.
    apply jwt_verify_inr in Hv.
    destruct Hv as (raw' & key' & t & [= <-] & [= <-] & _ & _ & Hp & Hs & <- & Hun).
    exists t. auto.
Qed.

End Facts.

(** ** The properties on the sample instance *)

Lemma issue_verify_roundtrip_witness :
  configured Sample.env "s3cret" /\
  exists raw,
    issue (lib := Sample.lib) Sample.env 1000 (profile_value Sample.alice) = inr raw /\
    verify (lib := Sample.lib) Sample.env 36999 raw = inr (profile_value Sample.alice).
Proof.
  split.
  - split; [vm_compute; reflexivity | discriminate].
  - apply (issue_verify_roundtrip (lib := Sample.lib) Sample.env Sample.alice "s3cret"
             1000 36999).
    + split; [vm_compute; reflexivity | discriminate].
    + split; [discriminate | vm_compute; reflexivity].
    + lia.
Defined.

Lemma verify_outcomes_witness :
  verify (lib := Sample.lib) Sample.env 1500 "forged" = inl InvalidSignature /\
  verify (lib := Sample.lib) Sample.env 1500 "tampered" = inl InvalidSignature /\
  verify (lib := Sample.lib) Sample.env 1500 "garbage" = inl InvalidSignature /\
  verify (lib := Sample.lib) Sample.env 37000 "cred.1000" = inl Expired /\
  verify (lib := Sample.lib) Sample.env 36999 "cred.1000"
    = inr (profile_value Sample.alice).
Proof.
  assert (Hc : configured Sample.env "s3cret")
    by (split; [vm_compute; reflexivity | discriminate]).
  split; [|split; [|split; [|split]]].
  - destruct (verify_outcomes (lib := Sample.lib) Sample.env "s3cret" 1500 "forged" Hc)
      as (_ & H & _).
    apply (H "guess" (jws_payload (Sample.cred 1000))); [discriminate | reflexivity].
  - destruct (verify_outcomes (lib := Sample.lib) Sample.env "s3cret" 1500 "tampered" Hc)
      as (_ & _ & H & _).
    apply (H (jws_payload (Sample.cred 1000))
             (with_times [("user", profile_value Sample.mallory)] 1000 36000));
      [discriminate | reflexivity].
  - destruct (verify_outcomes (lib := Sample.lib) Sample.env "s3cret" 1500 "garbage" Hc)
      as (_ & _ & _ & H & _).
    apply H. reflexivity.
  - destruct (verify_outcomes (lib := Sample.lib) Sample.env "s3cret" 37000 "cred.1000" Hc)
      as (_ & _ & _ & _ & H & _).
    apply (H (Sample.cred 1000) 37000); [discriminate | reflexivity | reflexivity
                                         | reflexivity | lia].
  - destruct (verify_outcomes (lib := Sample.lib) Sample.env "s3cret" 36999 "cred.1000" Hc)
      as (_ & _ & _ & _ & _ & H & _).
    rewrite (H (Sample.cred 1000)); [reflexivity | discriminate | reflexivity
                                     | reflexivity |].
    right. exists 37000. split; [reflexivity | lia].
Defined.

Lemma auth_gate_witness :
  statusCode (res (auth (lib := Sample.lib) Sample.env (Sample.online 1500)
                     Sample.no_cookie (fun _ x => x) fresh_exchange)) = 401 /\
  statusCode (res (auth (lib := Sample.lib) Sample.env (Sample.online 1500)
                     (Sample.with_cookie "forged") (fun _ x => x) fresh_exchange)) = 401 /\
  body (res (auth (lib := Sample.lib) Sample.env (Sample.online 1500)
               (Sample.with_cookie "cred.1000") Sample.whoami fresh_exchange))
  = Some (profile_value Sample.alice).
Proof.
  split; [|split].
  - apply (auth_gate (lib := Sample.lib) Sample.env (Sample.online 1500)
             Sample.no_cookie (fun _ x => x) fresh_exchange).
    left. vm_compute. reflexivity.
  - apply (auth_gate (lib := Sample.lib) Sample.env (Sample.online 1500)
             (Sample.with_cookie "forged") (fun _ x => x) fresh_exchange).
    right. exists "forged", InvalidSignature. split; vm_compute; reflexivity.
  - destruct (auth_gate (lib := Sample.lib) Sample.env (Sample.online 1500)
                (Sample.with_cookie "cred.1000") Sample.whoami fresh_exchange)
      as (_ & H & _).
    destruct (H (profile_value Sample.alice)) as [Heq _].
    + exists "cred.1000". split; vm_compute; reflexivity.
    + rewrite Heq. reflexivity.
Defined.

Lemma logged_in_always_200_witness :
  statusCode (res (auth_logged_in (lib := Sample.lib) Sample.env (Sample.online 40000)
                     (Sample.with_cookie "cred.1000") fresh_exchange)) = 200 /\
  body (res (auth_logged_in (lib := Sample.lib) Sample.env (Sample.online 40000)
               (Sample.with_cookie "cred.1000") fresh_exchange)) = Some logged_out /\
  body (res (auth_logged_in (lib := Sample.lib) Sample.env (Sample.online 2000)
               (Sample.with_cookie "cred.1000") fresh_exchange))
  = Some (logged_in_as (profile_value Sample.alice)).
Proof.
  split; [|split].
  - apply (logged_in_always_200 (lib := Sample.lib) Sample.env (Sample.online 40000)
             (Sample.with_cookie "cred.1000") fresh_exchange).
  - destruct (logged_in_always_200 (lib := Sample.lib) Sample.env (Sample.online 40000)
                (Sample.with_cookie "cred.1000") fresh_exchange) as (_ & _ & H & _).
    apply H. right. exists "cred.1000", Expired. split; vm_compute; reflexivity.
  - destruct (logged_in_always_200 (lib := Sample.lib) Sample.env (Sample.online 2000)
                (Sample.with_cookie "cred.1000") fresh_exchange) as (_ & _ & _ & H).
    apply H. exists "cred.1000". split; vm_compute; reflexivity.
Defined.

Lemma logged_in_refresh_witness :
  exists newToken e_new,
    setCookie (res (auth_logged_in (lib := Sample.lib) Sample.env (Sample.online 2000)
                      (Sample.with_cookie "cred.1000") fresh_exchange))
      = [SetCookie "token" newToken (session_cookie Sample.env)] /\
    expiration (lib := Sample.lib) "cred.1000" = Some 37000 /\
    expiration (lib := Sample.lib) newToken = Some e_new /\
    37000 < e_new.
Proof.
  destruct (logged_in_refresh (lib := Sample.lib) Sample.env (Sample.online 2000)
              (Sample.with_cookie "cred.1000") (profile_value Sample.alice) "s3cret")
    as (newToken & _ & Hset & _ & _ & _ & Hlater).
  - exists "cred.1000". split; by_computation.
  - split; [by_computation | discriminate].
  - split; [discriminate | by_computation].
  - destruct (Hlater "cred.1000" 1000) as (e_new & Hexp & _ & Hlt & _);
      [by_computation | by_computation |].
    exists newToken, e_new. split; [exact Hset|]. split; [by_computation|].
    split; [exact Hexp|]. apply Hlt. simpl. lia.
Defined.

(** Counterexample to C5 as the spec words it: a credential refreshed in
    the second in which it was issued is replaced by one that expires at
    the same time. *)
Lemma logged_in_same_second :
  ~ refresh_strictly_later (lib := Sample.lib) Sample.env (Sample.online 1000)
      (Sample.with_cookie "cred.1000").
Proof.
  intros H.
  destruct (H "cred.1000" (jws_payload (Sample.cred 1000)) 37000)
    as (newToken & options & e_new & Hset & Hexp & Hlt);
    [vm_compute; reflexivity .. |].
  vm_compute in Hset. injection Hset as <- _.
  vm_compute in Hexp. injection Hexp as <-.
  lia.
Qed.

Lemma auth_token_outcomes_witness :
  statusCode (res (auth_token (lib := Sample.lib) Sample.env (Sample.online 1000)
                     (Sample.with_code "") fresh_exchange)) = 400 /\
  statusCode (res (auth_token (lib := Sample.lib) Sample.env (Sample.stingy 1000)
                     (Sample.with_code "4/0Ab") fresh_exchange)) = 400 /\
  statusCode (res (auth_token (lib := Sample.lib) Sample.env (Sample.offline 1000)
                     (Sample.with_code "4/0Ab") fresh_exchange)) = 500 /\
  body (res (auth_token (lib := Sample.lib) Sample.env (Sample.online 1000)
               (Sample.with_code "4/0Ab") fresh_exchange))
  = Some (VObj [("user", profile_value Sample.alice)]) /\
  setCookie (res (auth_token (lib := Sample.lib) Sample.env (Sample.stingy 1000)
                    (Sample.with_code "4/0Ab") fresh_exchange)) = [] /\
  statusCode (res (auth_token (lib := Sample.lib) Sample.env (Cases.hollow 1000)
                     (Sample.with_code "4/0Ab") fresh_exchange)) = 500.
Proof.
  split; [|split; [|split; [|split; [|split]]]].
  - destruct (auth_token_outcomes (lib := Sample.lib) Sample.env (Sample.online 1000)
                (Sample.with_code "")) as (H & _).
    apply H. vm_compute. reflexivity.
  - destruct (auth_token_outcomes (lib := Sample.lib) Sample.env (Sample.stingy 1000)
                (Sample.with_code "4/0Ab")) as (_ & _ & H & _).
    apply (H [("error", VStr "invalid_grant")]); by_computation.
  - destruct (auth_token_outcomes (lib := Sample.lib) Sample.env (Sample.offline 1000)
                (Sample.with_code "4/0Ab")) as (_ & _ & _ & H & _).
    apply H; by_computation.
  - destruct (auth_token_outcomes (lib := Sample.lib) Sample.env (Sample.online 1000)
                (Sample.with_code "4/0Ab")) as (_ & _ & _ & _ & H & _).
    destruct H as (_ & data & id_token & u & newToken & _ & _ & _ & _ & _ & _ & Hbody).
    + vm_compute. discriminate.
    + pose proof Hbody as Hb. vm_compute in Hb. injection Hb as Hu.
      rewrite <- Hu in Hbody. exact Hbody.
  - destruct (auth_token_outcomes (lib := Sample.lib) Sample.env (Sample.stingy 1000)
                (Sample.with_code "4/0Ab")) as (_ & _ & _ & _ & _ & H & _).
    apply (H (VObj [("error", VStr "invalid_grant")]));
      [by_computation | by_computation | discriminate | discriminate |].
    intros (v & Hv & Htr). vm_compute in Hv. injection Hv as <-. discriminate Htr.
  - destruct (auth_token_outcomes (lib := Sample.lib) Sample.env (Cases.hollow 1000)
                (Sample.with_code "4/0Ab")) as (_ & _ & _ & _ & _ & _ & H).
    apply (H VNull); [by_computation | by_computation | left; reflexivity].
Defined.

(** Counterexample to C6 as the spec words it: the provider answers 2xx
    with the body [null], which holds no identity token, and the answer is
    500, not 400. *)
Lemma exchange_null_body_is_500 :
  ~ missing_id_token_is_400 (lib := Sample.lib) Sample.env (Cases.hollow 1000)
      (Sample.with_code "4/0Ab").
Proof.
  intros H.
  destruct (H VNull) as [Hstatus _].
  - by_computation.
  - by_computation.
  - intros (v & Hv & _). discriminate Hv.
  - vm_compute in Hstatus. discriminate Hstatus.
Qed.

Lemma auth_read_only_witness :
  setCookie (res (auth (lib := Sample.lib) Sample.env (Sample.online 1500)
                    (Sample.with_cookie "tampered") Sample.whoami fresh_exchange)) = [] /\
  auth (lib := Sample.lib) Sample.env (Sample.online 36999)
    (Sample.with_cookie "cred.1000") Sample.whoami fresh_exchange
  = auth (lib := Sample.lib) Sample.env (Sample.online 1500)
      (Sample.with_cookie "cred.1000") Sample.whoami fresh_exchange.
Proof.
  split.
  - destruct (auth_read_only (lib := Sample.lib) Sample.env (Sample.online 1500)
                (Sample.with_cookie "tampered") Sample.whoami fresh_exchange)
      as (H & _).
    apply H. right. exists "tampered", InvalidSignature. split; vm_compute; reflexivity.
  - destruct (auth_read_only (lib := Sample.lib) Sample.env (Sample.online 1500)
                (Sample.with_cookie "cred.1000") Sample.whoami fresh_exchange)
      as (_ & _ & H).
    apply (H (Sample.online 36999) "cred.1000" (jws_payload (Sample.cred 1000))).
    + vm_compute. reflexivity.
    + vm_compute. reflexivity.
    + right. exists 37000. split; [reflexivity | simpl; lia].
Defined.

Lemma user_posts_first_five_witness :
  body (res (user_posts (lib := Sample.lib) Sample.env (Sample.online 1500)
               (Sample.with_cookie "cred.1000") fresh_exchange))
  = Some (VObj [("posts", VArr [VNum 0; VNum 1; VNum 2; VNum 3; VNum 4])]) /\
  statusCode (res (user_posts (lib := Sample.lib) Sample.env (Sample.offline 1500)
                     (Sample.with_cookie "cred.1000") fresh_exchange)) = 500.
Proof.
  split.
  - destruct (user_posts_first_five (lib := Sample.lib) Sample.env (Sample.online 1500)
                (Sample.with_cookie "cred.1000") (profile_value Sample.alice))
      as (H & _).
    + exists "cred.1000". split; vm_compute; reflexivity.
    + destruct (H Sample.twenty) as (_ & Hbody & _); [vm_compute; reflexivity|].
      rewrite Hbody. reflexivity.
  - destruct (user_posts_first_five (lib := Sample.lib) Sample.env (Sample.offline 1500)
                (Sample.with_cookie "cred.1000") (profile_value Sample.alice))
      as (_ & H).
    + exists "cred.1000". split; vm_compute; reflexivity.
    + apply H. vm_compute. reflexivity.
Defined.


Lemma logged_in_failure_keeps_cookie_witness :
  setCookie (res (auth_logged_in (lib := Sample.lib) Sample.env (Sample.online 1500)
                    Sample.no_cookie fresh_exchange)) = [] /\
  setCookie (res (auth_logged_in (lib := Sample.lib) Sample.env (Sample.online 37000)
                    (Sample.with_cookie "cred.1000") fresh_exchange)) = [].
Proof.
  split.
  - destruct (logged_in_failure_keeps_cookie (lib := Sample.lib) Sample.env
                (Sample.online 1500) Sample.no_cookie fresh_exchange) as (H & _).
    apply H. left. vm_compute. reflexivity.
  - destruct (logged_in_failure_keeps_cookie (lib := Sample.lib) Sample.env
                (Sample.online 37000) (Sample.with_cookie "cred.1000") fresh_exchange)
      as (H & _).
    apply H. right. exists "cred.1000", Expired. split; vm_compute; reflexivity.
Defined.

(** * Further properties of the routes *)

Section MoreFacts.

Context {lib : TokenLib} {qs : QueryString}.
Variable env : gmap string string.

(** ** What each route answers to a fresh exchange *)

Lemma auth_token_normal w req :
  auth_token env w req fresh_exchange =
  let code := param req "code" in
  let failed := reply 500 (message "Server error") [] [exchange_call env code] in
  if truthy code then
    match net w (exchange_call env code) with
    | Rejected => failed
    | Fulfilled data =>
        match get data "id_token" with
        | inl _ => failed
        | inr v =>
            if truthy v then
              match get (jwt_decode v) "email", get (jwt_decode v) "name",
                    get (jwt_decode v) "picture" with
              | inr mail, inr nm, inr pic =>
                  let u := VObj [("name", nm); ("email", mail); ("picture", pic)] in
                  match issue env (now w) u with
                  | inr tok =>
                      reply 200 (VObj [("user", u)])
                        [SetCookie "token" tok (session_cookie env)]
                        [exchange_call env code]
                  | inl _ => failed
                  end
              | _, _, _ => failed
              end
            else reply 400 (message "Authorization error") [] [exchange_call env code]
        end
    end
  else reply 400 (message "Authorization code must be provided") [] [].
Proof.
  unfold auth_token, exchange_call, issue. cbv zeta.
  destruct (truthy (param req "code")); cbn [negb]; [|reflexivity].
  unfold run, try_catch, bind, axios, lift.
  destruct (net w _) as [data|]; [|reflexivity].
  destruct (get data "id_token") as [e|v]; [reflexivity|].
  destruct (truthy v); cbn [negb]; [|reflexivity].
  destruct (get (jwt_decode v) "email") as [e|mail]; [reflexivity|].
  destruct (get (jwt_decode v) "name") as [e|nm]; [reflexivity|].
  destruct (get (jwt_decode v) "picture") as [e|pic]; [reflexivity|].
  destruct (jwt_sign (now w) _ _ _) as [e|tok]; reflexivity.
Qed.

Lemma logged_in_normal w req :
  (rejected env w req /\
   auth_logged_in env w req fresh_exchange = reply 200 logged_out [] []) \/
  (exists u tok,
     admitted env w req u /\ issue env (now w) u = inr tok /\
     auth_logged_in env w req fresh_exchange
     = reply 200 (logged_in_as u) [SetCookie "token" tok (session_cookie env)] []).
Proof.
  destruct (admitted_or_rejected env w req) as [[u Ha] | Hr].
  - right. destruct (admitted_configured env w req u Ha) as [key Hk].
    exists u, (jws_print (session key u (now w))).
    pose proof (issue_session env key u (now w) Hk) as Hi.
    rewrite (logged_in_admitted env w req fresh_exchange u _ Ha Hi). auto.
  - left. rewrite (logged_in_rejected env w req fresh_exchange Hr). auto.
Qed.

Lemma posts_normal w req :
  posts env w req fresh_exchange =
  match net w (posts_call env) with
  | Rejected => reply 500 (message "Server error") [] [posts_call env]
  | Fulfilled data =>
      match slice data 0 5 with
      | inr first => reply 200 (VObj [("posts", first)]) [] [posts_call env]
      | inl _ => reply 500 (message "Server error") [] [posts_call env]
      end
  end.
Proof.
  unfold posts, posts_call, run, try_catch, bind, axios, lift.
  destruct (net w _) as [data|]; [|reflexivity].
  destruct (slice data 0 5); reflexivity.
Qed.

Lemma user_posts_normal w req :
  (rejected env w req /\
   user_posts env w req fresh_exchange = reply 401 (message "Unauthorized") [] []) \/
  (exists u, admitted env w req u /\
             user_posts env w req fresh_exchange = posts env w (set_user req u) fresh_exchange).
Proof.
  unfold user_posts.
  destruct (admitted_or_rejected env w req) as [[u Ha] | Hr].
  - right. exists u. rewrite (auth_admitted env w req _ fresh_exchange u Ha). auto.
  - left. rewrite (auth_rejected env w req _ fresh_exchange Hr). auto.
Qed.

(** Every branch of a normal form is tried in turn. *)
Ltac explode :=
  cbv zeta;
  repeat match goal with
         | |- context [match ?x with _ => _ end] => destruct x eqn:?
         end.

(** ** The protected resource, outside the admitted list case *)

(** X1: a request without a session cookie, or with one that fails
    verification, gets 401 Unauthorized from [/user/posts]; the resource
    API is not called and no cookie header is written. *)
Theorem user_posts_unauthorized (w : world) (req : request) :
  rejected env w req ->
  user_posts env w req fresh_exchange = reply 401 (message "Unauthorized") [] [].
Proof.
  intros Hr. destruct (user_posts_normal w req) as [[_ H] | (u & Ha & _)]; [exact H|].
  destruct (admitted_not_rejected env w req u Ha Hr).
Qed.

(** X2: when the resource API answers with something that is neither a
    list nor a string, the call of [slice] throws and an admitted request
    gets 500, after the one call. *)
Theorem user_posts_not_a_list (w : world) (req : request) (u data : value) :
  admitted env w req u ->
  net w (posts_call env) = Fulfilled data ->
  (forall items, data <> VArr items) ->
  (forall text, data <> VStr text) ->
  user_posts env w req fresh_exchange
  = reply 500 (message "Server error") [] [posts_call env].
Proof.
  intros Ha Hnet Harr Hstr.
  destruct (user_posts_normal w req) as [[Hr _] | (u' & _ & H)].
  - destruct (admitted_not_rejected env w req u Ha Hr).
  - rewrite H, posts_normal, Hnet.
    destruct data; try reflexivity.
    + destruct (Hstr s eq_refl).
    + destruct (Harr items eq_refl).
Qed.

(** ** The code exchange, beyond its three documented failures *)

Lemma jwt_decode_null v :
  (forall raw, v = VStr raw -> jws_parse raw = None) -> jwt_decode v = VNull.
Proof.
  intros H. destruct v; try reflexivity. simpl. rewrite (H s eq_refl). reflexivity.
Qed.

(** X3: when the provider answers with an [id_token] that is not a
    decodable token, destructuring the result of [jwt.decode] throws: the
    answer is 500 and no cookie is set. *)
Theorem auth_token_undecodable (w : world) (req : request) (data v : value) :
  truthy (param req "code") = true ->
  net w (exchange_call env (param req "code")) = Fulfilled data ->
  get data "id_token" = inr v ->
  truthy v = true ->
  (forall raw, v = VStr raw -> jws_parse raw = None) ->
  auth_token env w req fresh_exchange
  = reply 500 (message "Server error") [] [exchange_call env (param req "code")].
Proof.
  intros Hcode Hnet Hid Hv Hbad.
  rewrite auth_token_normal. cbv zeta.
  rewrite Hcode, Hnet, Hid, Hv, (jwt_decode_null v Hbad). reflexivity.
Qed.

(** X4: when the provider answers 2xx with a body that is [null] (or
    missing), reading [response.data.id_token] throws: the answer is 500,
    not 400, and no cookie is set. *)
Theorem auth_token_null_body (w : world) (req : request) (data : value) :
  truthy (param req "code") = true ->
  net w (exchange_call env (param req "code")) = Fulfilled data ->
  data = VNull \/ data = VUndefined ->
  auth_token env w req fresh_exchange
  = reply 500 (message "Server error") [] [exchange_call env (param req "code")].
Proof.
  intros Hcode Hnet Hdata.
  rewrite auth_token_normal. cbv zeta. rewrite Hcode, Hnet.
  destruct Hdata as [-> | ->]; reflexivity.
Qed.

(** X7: with a configured secret, a code and a provider answer whose
    [id_token] decodes to an object, the exchange succeeds whatever the
    signature of the identity token: the profile is made of the claims
    [name], [email] and [picture] only (a missing one is [undefined]), the
    cookie holds the credential issued now for it and the body is
    [{user}]. *)
Theorem auth_token_success (w : world) (req : request) (key raw : string)
    (data : value) (t : jws) (claims : list (string * value)) :
  configured env key ->
  truthy (param req "code") = true ->
  net w (exchange_call env (param req "code")) = Fulfilled data ->
  get data "id_token" = inr (VStr raw) ->
  raw <> "" ->
  jws_parse raw = Some t ->
  jws_payload t = VObj claims ->
  let u := VObj [("name", default VUndefined (obj_lookup "name" claims));
                 ("email", default VUndefined (obj_lookup "email" claims));
                 ("picture", default VUndefined (obj_lookup "picture" claims))] in
  auth_token env w req fresh_exchange
  = reply 200 (VObj [("user", u)])
      [SetCookie "token" (jws_print (session key u (now w))) (session_cookie env)]
      [exchange_call env (param req "code")].
Proof.
  intros Hk Hcode Hnet Hid Hraw Hp Hclaims u.
  rewrite auth_token_normal. cbv zeta. rewrite Hcode, Hnet, Hid.
  apply String.eqb_neq in Hraw. cbn [truthy]. rewrite Hraw. cbn [negb].
  unfold jwt_decode. rewrite Hp, Hclaims. cbn [get].
  fold u. rewrite (issue_session env key u (now w) Hk). reflexivity.
Qed.

(** ** Sessions over several requests *)

Lemma session_user key u t :
  get (jws_payload (session key u t)) "user" = inr (json_roundtrip u).
Proof. destruct u; reflexivity. Qed.

Lemma session_lifetime key u t w' req' :
  configured env key ->
  reads_back (session key u t) ->
  cookies req' !! "token" = Some (jws_print (session key u t)) ->
  (admitted env w' req' (json_roundtrip u) <-> now w' < t + 36000).
Proof.
  intros Hk [Hne Hback] Hc. split.
  - intros (raw & Hc' & Hv). rewrite Hc in Hc'. injection Hc' as <-.
    apply verify_inr in Hv. destruct Hv as (decoded & Hv & _ & _).
    apply jwt_verify_inr in Hv.
    destruct Hv as (raw' & _ & t0 & [= <-] & _ & _ & _ & Hp & _ & <- & Hun).
    rewrite Hback in Hp. injection Hp as <-.
    destruct Hun as [Hx | (e & Hx & Hlt)]; rewrite session_exp in Hx;
      [discriminate|]. injection Hx as <-. exact Hlt.
  - intros Hlt. exists (jws_print (session key u t)). split; [exact Hc|].
    unfold verify. rewrite (configured_secret env key Hk).
    rewrite (jwt_verify_valid _ _ key (session key u t));
      [apply session_user | exact Hne | apply Hk | exact Hback | reflexivity |].
    right. exists (t + 36000). split; [apply session_exp | exact Hlt].
Qed.

Lemma follow_session status content tok options calls jar :
  follow (res (reply status content [SetCookie "token" tok options] calls)) jar
    !! "token" = Some tok.
Proof. unfold follow. simpl. apply lookup_insert_eq. Qed.

Lemma auth_token_body_inv w req u :
  body (res (auth_token env w req fresh_exchange)) = Some (VObj [("user", u)]) ->
  exists tok,
    issue env (now w) u = inr tok /\
    auth_token env w req fresh_exchange
    = reply 200 (VObj [("user", u)]) [SetCookie "token" tok (session_cookie env)]
        [exchange_call env (param req "code")].
Proof.
  rewrite auth_token_normal. explode; intros H; try discriminate H.
  simpl in H. injection H as <-. eauto.
Qed.

(** X8: after a successful code exchange, a client that obeys the cookie
    header is admitted by [auth], with the JSON form of the profile it was
    shown, exactly until 36000 seconds after the exchange: admitted at
    every earlier second, rejected from that second on. *)
Theorem login_then_access (w w' : world) (req : request) (key : string) (u : value)
    (jar : gmap string string) (q : gmap string value) :
  configured env key ->
  body (res (auth_token env w req fresh_exchange)) = Some (VObj [("user", u)]) ->
  reads_back (session key u (now w)) ->
  (admitted env w'
     (carrying (follow (res (auth_token env w req fresh_exchange)) jar) q)
     (json_roundtrip u)
   <-> now w' < now w + 36000).
Proof.
  intros Hk Hbody Hback.
  destruct (auth_token_body_inv w req u Hbody) as (tok & Hi & ->).
  rewrite (issue_session env key u (now w) Hk) in Hi. injection Hi as <-.
  apply (session_lifetime key u (now w) w' _ Hk Hback).
  apply follow_session.
Qed.

(** X9: after a successful login-status check, a client that obeys the
    cookie header is admitted exactly until 36000 seconds after that check,
    however little time the credential it presented had left. *)
Theorem refresh_then_access (w w' : world) (req : request) (key : string) (u : value)
    (jar : gmap string string) (q : gmap string value) :
  admitted env w req u ->
  configured env key ->
  reads_back (session key u (now w)) ->
  (admitted env w'
     (carrying (follow (res (auth_logged_in env w req fresh_exchange)) jar) q)
     (json_roundtrip u)
   <-> now w' < now w + 36000).
Proof.
  intros Ha Hk Hback.
  rewrite (logged_in_admitted env w req fresh_exchange u _ Ha
             (issue_session env key u (now w) Hk)).
  apply (session_lifetime key u (now w) w' _ Hk Hback).
  unfold follow. simpl. apply lookup_insert_eq.
Qed.

(** X10: after [/auth/logout], a client that obeys the cookie header has
    dropped the session cookie and kept its other cookies; its next
    login-status check answers [{loggedIn: false}] and its next request
    for the posts gets 401, whatever the time. *)
Theorem logout_then_logged_out (w : world) (jar : gmap string string)
    (q : gmap string value) :
  let jar' := follow (res (auth_logout fresh_exchange)) jar in
  jar' !! "token" = None /\
  (forall other, other <> "token" -> jar' !! other = jar !! other) /\
  auth_logged_in env w (carrying jar' q) fresh_exchange = reply 200 logged_out [] [] /\
  user_posts env w (carrying jar' q) fresh_exchange
  = reply 401 (message "Unauthorized") [] [].
Proof.
  intros jar'.
  assert (Hgone : jar' !! "token" = None) by apply lookup_delete_eq.
  assert (Hr : rejected env w (carrying jar' q)) by (left; exact Hgone).
  split; [exact Hgone|]. split; [|split].
  - intros other Hne. apply lookup_delete_ne. congruence.
  - rewrite (logged_in_rejected env w _ fresh_exchange Hr). reflexivity.
  - unfold user_posts. rewrite (auth_rejected env w _ _ fresh_exchange Hr). reflexivity.
Qed.

(** X13: the login-status check and the gate agree: for the same request at
    the same time, [/user/posts] answers 401 exactly when
    [/auth/logged_in] answers [{loggedIn: false}]. *)
Theorem logged_in_agrees_with_auth (w : world) (req : request) :
  statusCode (res (user_posts env w req fresh_exchange)) = 401
  <-> body (res (auth_logged_in env w req fresh_exchange)) = Some logged_out.
Proof.
  destruct (user_posts_normal w req) as [[Hr Hp] | (u & Ha & Hp)]; rewrite Hp.
  - rewrite (logged_in_rejected env w req fresh_exchange Hr). split; reflexivity.
  - destruct (admitted_configured env w req u Ha) as [key Hk].
    rewrite (logged_in_admitted env w req fresh_exchange u _ Ha
               (issue_session env key u (now w) Hk)).
    rewrite posts_normal. split; [|discriminate].
    explode; discriminate.
Qed.

Lemma json_roundtrip_idem :
  forall v, json_roundtrip (json_roundtrip v) = json_roundtrip v.
Proof.
  fix IH 1. intros [| | | | | items | fields]; try reflexivity.
  - simpl. f_equal. revert items. fix IHl 1. intros [|x xs]; [reflexivity|].
    simpl. f_equal; [|apply IHl].
    pose proof (IH x) as Hx. destruct x; try reflexivity; exact Hx.
  - simpl. f_equal. revert fields. fix IHl 1. intros [|[k x] rest]; [reflexivity|].
    simpl. pose proof (IH x) as Hx.
    destruct x; simpl;
      first [ apply IHl
            | apply (f_equal2 cons);
              [first [reflexivity | apply (f_equal (pair k)); exact Hx] | apply IHl] ].
Qed.

(** X14: refreshing does not change who the session belongs to.  A client
    holding a credential of the service, polling the login-status check
    while it is unexpired, is admitted afterwards (until 36000 seconds
    after the poll) with the very identity it was admitted with before. *)
Theorem refresh_keeps_identity (w w' : world) (req : request) (key : string)
    (u0 : value) (t0 : Z) (jar : gmap string string) (q : gmap string value) :
  configured env key ->
  reads_back (session key u0 t0) ->
  cookies req !! "token" = Some (jws_print (session key u0 t0)) ->
  now w < t0 + 36000 ->
  reads_back (session key (json_roundtrip u0) (now w)) ->
  now w' < now w + 36000 ->
  admitted env w req (json_roundtrip u0) /\
  admitted env w'
    (carrying (follow (res (auth_logged_in env w req fresh_exchange)) jar) q)
    (json_roundtrip u0).
Proof.
  intros Hk Hback0 Hc Hlt0 Hback Hlt.
  assert (Ha : admitted env w req (json_roundtrip u0))
    by (apply (session_lifetime key u0 t0 w req Hk Hback0 Hc); exact Hlt0).
  split; [exact Ha|].
  rewrite (logged_in_admitted env w req fresh_exchange _ _ Ha
             (issue_session env key _ (now w) Hk)).
  rewrite <- (json_roundtrip_idem u0) at 2.
  apply (session_lifetime key (json_roundtrip u0) (now w) w' _ Hk Hback); [|exact Hlt].
  unfold follow. simpl. apply lookup_insert_eq.
Qed.

(** ** What holds on every route *)

(** X6: outbound calls.  The code exchange calls the provider once, with
    the code it was given, exactly when a code is present; the posts route
    calls the resource API once exactly when the request is admitted; the
    other routes call nothing.  No route calls twice. *)
Theorem outbound_calls (r : route) (w : world) (req : request) :
  let calls := sent (app env r w req fresh_exchange) in
  match r with
  | GetAuthToken =>
      calls = if truthy (param req "code")
              then [exchange_call env (param req "code")] else []
  | GetUserPosts =>
      (rejected env w req -> calls = []) /\
      (forall u, admitted env w req u -> calls = [posts_call env])
  | _ => calls = []
  end.
Proof.
  destruct r; cbn [app]; cbv zeta.
  - reflexivity.
  - rewrite auth_token_normal. explode; reflexivity.
  - destruct (logged_in_normal w req) as [[_ ->] | (u & tok & _ & _ & ->)]; reflexivity.
  - reflexivity.
  - destruct (user_posts_normal w req) as [[Hr Hp] | (u & Ha & Hp)]; rewrite Hp; split.
    + reflexivity.
    + intros u Ha. destruct (admitted_not_rejected env w req u Ha Hr).
    + intros Hr. destruct (admitted_not_rejected env w req u Ha Hr).
    + intros _ _. rewrite posts_normal. explode; reflexivity.
Qed.

(** X11: every route answers with a body, and with a status from a fixed
    set: 200 always for the authorization URL, the login-status check and
    the logout; 200, 400 or 500 for the code exchange; 200, 401 or 500 for
    the posts. *)
Theorem status_codes (r : route) (w : world) (req : request) :
  let out := app env r w req fresh_exchange in
  is_Some (body (res out)) /\
  match r with
  | GetAuthUrl | GetAuthLoggedIn | PostAuthLogout => statusCode (res out) = 200
  | GetAuthToken =>
      statusCode (res out) = 200 \/ statusCode (res out) = 400 \/
      statusCode (res out) = 500
  | GetUserPosts =>
      statusCode (res out) = 200 \/ statusCode (res out) = 401 \/
      statusCode (res out) = 500
  end.
Proof.
  destruct r; cbn [app]; cbv zeta.
  - split; [eexists|]; reflexivity.
  - rewrite auth_token_normal. explode; (split; [eexists; reflexivity | auto]).
  - destruct (logged_in_normal w req) as [[_ ->] | (u & tok & _ & _ & ->)];
      (split; [eexists|]; reflexivity).
  - split; [eexists|]; reflexivity.
  - destruct (user_posts_normal w req) as [[_ ->] | (u & _ & ->)].
    + split; [eexists; reflexivity | auto].
    + rewrite posts_normal. explode; (split; [eexists; reflexivity | auto]).
Qed.

(** X12: cookie headers.  A response carries at most one cookie header, and
    it is either the session cookie [token] with the fixed options
    (http-only, secure, SameSite None, 36000000 ms) or the clearing of
    [token].  A response whose status is not 200 carries none, and only the
    code exchange and the login-status check set the cookie, only the
    logout clears it. *)
Theorem cookie_discipline (r : route) (w : world) (req : request) :
  let out := app env r w req fresh_exchange in
  (length (setCookie (res out)) <= 1)%nat /\
  Forall (session_header env) (setCookie (res out)) /\
  (statusCode (res out) <> 200 -> setCookie (res out) = []) /\
  (forall tok options, In (SetCookie "token" tok options) (setCookie (res out)) ->
     r = GetAuthToken \/ r = GetAuthLoggedIn) /\
  (In (ClearCookie "token") (setCookie (res out)) -> r = PostAuthLogout).
Proof.
  assert (Hnone : forall status content calls,
            let out := reply status content [] calls in
            (length (setCookie (res out)) <= 1)%nat /\
            Forall (session_header env) (setCookie (res out)) /\
            (statusCode (res out) <> 200 -> setCookie (res out) = []) /\
            (forall tok options,
               In (SetCookie "token" tok options) (setCookie (res out)) ->
               r = GetAuthToken \/ r = GetAuthLoggedIn) /\
            (In (ClearCookie "token") (setCookie (res out)) -> r = PostAuthLogout)).
  { intros status content calls. simpl.
    repeat split; auto; try constructor; intros; contradiction. }
  assert (Hset : forall content tok calls,
            r = GetAuthToken \/ r = GetAuthLoggedIn ->
            let out := reply 200 content [SetCookie "token" tok (session_cookie env)]
                         calls in
            (length (setCookie (res out)) <= 1)%nat /\
            Forall (session_header env) (setCookie (res out)) /\
            (statusCode (res out) <> 200 -> setCookie (res out) = []) /\
            (forall tok options,
               In (SetCookie "token" tok options) (setCookie (res out)) ->
               r = GetAuthToken \/ r = GetAuthLoggedIn) /\
            (In (ClearCookie "token") (setCookie (res out)) -> r = PostAuthLogout)).
  { intros content tok calls Hr. simpl. split; [lia|]. split; [|split; [|split]].
    - constructor; [|constructor]. left. eauto.
    - intros H. destruct (H eq_refl).
    - intros; exact Hr.
    - intros [H | []]. discriminate H. }
  destruct r; cbn [app]; cbv zeta.
  - apply (Hnone 200 (VObj [("url", VStr (getAuthUrl env))]) []).
  - rewrite auth_token_normal. explode;
      first [apply Hnone | apply Hset; left; reflexivity].
  - destruct (logged_in_normal w req) as [[_ ->] | (u & tok & _ & _ & ->)];
      [apply Hnone | apply Hset; right; reflexivity].
  - simpl. split; [lia|]. split; [|split; [|split]].
    + constructor; [|constructor]. right. reflexivity.
    + intros H. destruct (H eq_refl).
    + intros tok options [H | []]. discriminate H.
    + reflexivity.
  - destruct (user_posts_normal w req) as [[_ ->] | (u & _ & ->)]; [apply Hnone|].
    rewrite posts_normal. explode; apply Hnone.
Qed.

End MoreFacts.

(** ** The further properties on the sample instance *)

Lemma user_posts_unauthorized_witness :
  user_posts (lib := Sample.lib) Sample.env (Sample.online 1500) Sample.no_cookie
    fresh_exchange
  = reply 401 (message "Unauthorized") [] [].
Proof.
  apply (user_posts_unauthorized (lib := Sample.lib) Sample.env (Sample.online 1500)
           Sample.no_cookie).
  left. by_computation.
Defined.

Lemma user_posts_not_a_list_witness :
  statusCode (res (user_posts (lib := Sample.lib) Sample.env (Cases.wrapped 1500)
                     (Sample.with_cookie "cred.1000") fresh_exchange)) = 500.
Proof.
  rewrite (user_posts_not_a_list (lib := Sample.lib) Sample.env (Cases.wrapped 1500)
             (Sample.with_cookie "cred.1000") (profile_value Sample.alice)
             (VObj [("items", VArr Sample.twenty)])).
  - reflexivity.
  - exists "cred.1000". split; by_computation.
  - by_computation.
  - discriminate.
  - discriminate.
Defined.

Lemma auth_token_undecodable_witness :
  statusCode (res (auth_token (lib := Sample.lib) Sample.env (Cases.garbled 1000)
                     (Sample.with_code "4/0Ab") fresh_exchange)) = 500.
Proof.
  rewrite (auth_token_undecodable (lib := Sample.lib) Sample.env (Cases.garbled 1000)
             (Sample.with_code "4/0Ab")
             (VObj [("id_token", VStr "not-a-token")]) (VStr "not-a-token")).
  - reflexivity.
  - by_computation.
  - by_computation.
  - reflexivity.
  - reflexivity.
  - intros raw [= <-]. by_computation.
Defined.

Lemma auth_token_null_body_witness :
  statusCode (res (auth_token (lib := Sample.lib) Sample.env (Cases.hollow 1000)
                     (Sample.with_code "4/0Ab") fresh_exchange)) = 500.
Proof.
  rewrite (auth_token_null_body (lib := Sample.lib) Sample.env (Cases.hollow 1000)
             (Sample.with_code "4/0Ab") VNull).
  - reflexivity.
  - by_computation.
  - by_computation.
  - left. reflexivity.
Defined.

Lemma auth_token_success_witness :
  auth_token (lib := Sample.lib) Sample.env (Sample.online 1000)
    (Sample.with_code "4/0Ab") fresh_exchange
  = reply 200 (VObj [("user", profile_value Sample.alice)])
      [SetCookie "token" "cred.1000" (session_cookie Sample.env)]
      [exchange_call Sample.env (VStr "4/0Ab")].
Proof.
  rewrite (auth_token_success (lib := Sample.lib) Sample.env (Sample.online 1000)
             (Sample.with_code "4/0Ab") "s3cret" "id.alice"
             (VObj [("id_token", VStr "id.alice")]) Sample.id_token
             [("email", VStr "alice@example.org"); ("name", VStr "Alice");
              ("picture", VStr "https://example.org/a.png")]).
  - by_computation.
  - split; [by_computation | discriminate].
  - by_computation.
  - by_computation.
  - reflexivity.
  - discriminate.
  - reflexivity.
  - reflexivity.
Defined.

Lemma login_then_access_witness :
  admitted (lib := Sample.lib) Sample.env (Sample.online 36999)
    (carrying (follow (res (auth_token (lib := Sample.lib) Sample.env (Sample.online 1000)
                              (Sample.with_code "4/0Ab") fresh_exchange)) empty) empty)
    (profile_value Sample.alice).
Proof.
  apply (login_then_access (lib := Sample.lib) Sample.env (Sample.online 1000)
           (Sample.online 36999) (Sample.with_code "4/0Ab") "s3cret"
           (profile_value Sample.alice) empty empty).
  - split; [by_computation | discriminate].
  - by_computation.
  - split; [discriminate | by_computation].
  - simpl. lia.
Defined.

Lemma refresh_then_access_witness :
  admitted (lib := Sample.lib) Sample.env (Sample.online 37999)
    (carrying (follow (res (auth_logged_in (lib := Sample.lib) Sample.env
                              (Sample.online 2000) (Sample.with_cookie "cred.1000")
                              fresh_exchange)) empty) empty)
    (profile_value Sample.alice).
Proof.
  apply (refresh_then_access (lib := Sample.lib) Sample.env (Sample.online 2000)
           (Sample.online 37999) (Sample.with_cookie "cred.1000") "s3cret"
           (profile_value Sample.alice) empty empty).
  - exists "cred.1000". split; by_computation.
  - split; [by_computation | discriminate].
  - split; [discriminate | by_computation].
  - simpl. lia.
Defined.

Lemma refresh_keeps_identity_witness :
  admitted (lib := Sample.lib) Sample.env (Sample.online 2000)
    (Sample.with_cookie "cred.1000") (profile_value Sample.alice) /\
  admitted (lib := Sample.lib) Sample.env (Sample.online 37999)
    (carrying (follow (res (auth_logged_in (lib := Sample.lib) Sample.env
                              (Sample.online 2000) (Sample.with_cookie "cred.1000")
                              fresh_exchange)) empty) empty)
    (profile_value Sample.alice).
Proof.
  apply (refresh_keeps_identity (lib := Sample.lib) Sample.env (Sample.online 2000)
           (Sample.online 37999) (Sample.with_cookie "cred.1000") "s3cret"
           (profile_value Sample.alice) 1000 empty empty).
  - split; [by_computation | discriminate].
  - split; [discriminate | by_computation].
  - by_computation.
  - simpl. lia.
  - split; [discriminate | by_computation].
  - simpl. lia.
Defined.
